(** * E-Commerce API (src/main.py): a shallow embedding of the product
    endpoints, the document conversion, the seed routine and the database
    diagnostic, over a model of the document store. *)

From Stdlib Require Import String Ascii List NArith ZArith QArith Lia.
Import ListNotations.
Open Scope string_scope.

(** ** Stored values and documents *)

(** The BSON/JSON values the endpoints read and write: Python [None],
    booleans, floats (as rationals), strings and ObjectIds. An ObjectId
    holds a binary value: [VOid o] is the usual 12-byte one, read as a
    96-bit big-endian number; [VOidBytes bs] is one whose binary has any
    other length (bson builds these from texts with whitespace, see
    [object_id]). *)
Inductive value : Type :=
| VNull
| VBool (b : bool)
| VNum (q : Q)
| VStr (s : string)
| VOid (o : N)
| VOidBytes (bs : list N).

(** A document (a Python dict / Mongo document) as an association list;
    [doc.get(k)] is the first binding of [k]. *)
Definition doc := list (string * value).

Fixpoint lookup (k : string) (d : doc) : option value :=
  match d with
  | [] => None
  | (k', v) :: d' => if String.eqb k k' then Some v else lookup k d'
  end.

(** [doc.get(k, default)] *)
Definition get (d : doc) (k : string) (default : value) : value :=
  match lookup k d with Some v => v | None => default end.

(** ** ObjectId text form *)

Definition hex_digit (n : N) : ascii :=
  if (n <? 10)%N then ascii_of_N (48 + n) else ascii_of_N (87 + n).

Definition hex_val (c : ascii) : option N :=
  let n := N_of_ascii c in
  if ((48 <=? n) && (n <=? 57))%N then Some (n - 48)%N
  else if ((97 <=? n) && (n <=? 102))%N then Some (n - 87)%N
  else if ((65 <=? n) && (n <=? 70))%N then Some (n - 55)%N
  else None.

(** The last [k] hexadecimal digits of [n], prepended to [acc]. *)
Fixpoint hex_acc (k : nat) (n : N) (acc : string) : string :=
  match k with
  | O => acc
  | S k' => hex_acc k' (n / 16) (String (hex_digit (n mod 16)) acc)
  end.

(** [str(ObjectId)]: 24 lowercase hexadecimal digits. *)
Definition oid_str (o : N) : string := hex_acc 24 o "".

Fixpoint parse_hex (s : string) (acc : N) : option N :=
  match s with
  | EmptyString => Some acc
  | String c s' =>
      match hex_val c with
      | Some d => parse_hex s' (acc * 16 + d)
      | None => None
      end
  end.

(** The 24 hexadecimal digits of a 12-byte ObjectId, read as a number;
    [None] for any other text. *)
Definition parse_oid (s : string) : option N :=
  if Nat.eqb (String.length s) 24 then parse_hex s 0 else None.

(** [Py_ISSPACE]: space, tab, newline, vertical tab, form feed, return. *)
Definition is_space (c : ascii) : bool :=
  let n := N_of_ascii c in ((n =? 32) || ((9 <=? n) && (n <=? 13)))%N.

(** [bytes.fromhex(s)] (CPython [_PyBytes_FromHex]): whitespace is skipped
    before each byte; a byte is two consecutive hexadecimal digits; any
    other character, or a lone digit at the end, raises ValueError. (A
    non-ASCII character raises too: its UTF-8 bytes are no hex digits.) *)
Fixpoint fromhex (s : string) : option (list N) :=
  match s with
  | EmptyString => Some []
  | String c s' =>
      if is_space c then fromhex s'
      else match hex_val c, s' with
           | Some hi, String c2 s'' =>
               match hex_val c2 with
               | Some lo =>
                   match fromhex s'' with
                   | Some bs => Some ((hi * 16 + lo)%N :: bs)
                   | None => None
                   end
               | None => None
               end
           | _, _ => None
           end
  end.

(** A binary read as a big-endian number, after [acc]. *)
Definition bytes_val (acc : N) (bs : list N) : N :=
  fold_left (fun a b => (a * 256 + b)%N) bs acc.

Definition oid_of_bytes (bs : list N) : value :=
  if Nat.eqb (List.length bs) 12 then VOid (bytes_val 0 bs) else VOidBytes bs.

(** [ObjectId(s)] for a text [s] (bson):
    [if len(oid) == 24: self.__id = bytes.fromhex(oid)] (a ValueError
    becomes InvalidId), otherwise InvalidId. The binary is kept whatever
    its length. [None] when it raises. *)
Definition object_id (s : string) : option value :=
  if Nat.eqb (String.length s) 24 then
    match fromhex s with
    | Some bs => Some (oid_of_bytes bs)
    | None => None
    end
  else None.

(** Option sequencing, for the code paths that can raise. *)
Notation "x <- a ;; b" :=
  (match a with Some x => b | None => None end)
  (right associativity, at level 60).

(** ** The document store (database.py)

    The module [database] (the handle [db] and the helpers
    [create_document] and [get_documents]) is imported by src/main.py but
    is not part of the sources; the store is modelled from the spec. *)

(** The store operations, recorded in a trace so that "no query" and "no
    write" are observable. *)
Inductive op : Type :=
| OpFind (coll : string) (filt : doc) (limit : Z)
| OpFindOne (coll : string) (filt : doc)
| OpCount (coll : string) (filt : doc)
| OpInsert (coll : string) (d : doc).

(** [db.name] as [hasattr] sees it: present, absent, or its getter raising
    something other than AttributeError (which [hasattr] lets through). *)
Inductive name_attr : Type :=
| HasName (s : string)
| NoName
| NameRaises (msg : string).

(** Modelled from the spec (database.py is missing): a connected handle,
    holding the [product] collection in store order, the next identifier
    the store hands out, the trace of operations issued, the handle's
    [name] attribute and what [list_collection_names()] gives (an
    exception message on the left). *)
Record Store : Type := mkStore {
  products : list doc;
  next_oid : N;
  trace : list op;
  db_name : name_attr;
  collection_names : string + list string
}.

Fixpoint bytes_eqb (a b : list N) : bool :=
  match a, b with
  | [], [] => true
  | x :: a', y :: b' => N.eqb x y && bytes_eqb a' b'
  | _, _ => false
  end.

(** Equality of BSON values, as the store compares a filter's value. *)
Definition value_eqb (v w : value) : bool :=
  match v, w with
  | VNull, VNull => true
  | VBool a, VBool b => Bool.eqb a b
  | VNum p, VNum q => Qeq_bool p q
  | VStr s, VStr t => String.eqb s t
  | VOid a, VOid b => N.eqb a b
  | VOidBytes a, VOidBytes b => bytes_eqb a b
  | _, _ => false
  end.

(** Modelled from the spec: a filter is a conjunction of exact field
    equalities. *)
Definition matches (filt : doc) (d : doc) : bool :=
  forallb (fun kv => match lookup (fst kv) d with
                     | Some v => value_eqb (snd kv) v
                     | None => false
                     end) filt.

Definition log (st : Store) (o : op) : Store :=
  mkStore (products st) (next_oid st) (trace st ++ [o])
          (db_name st) (collection_names st).

(** Modelled from the spec, [get_documents(collection, filter, limit)]:
    up to [limit] matching records, in store order. *)
Definition get_documents (st : Store) (coll : string) (filt : doc) (limit : Z)
  : list doc * Store :=
  (firstn (Z.to_nat limit) (filter (matches filt) (products st)),
   log st (OpFind coll filt limit)).

(** Modelled from the spec, [create_document(collection, record)]: the
    store assigns a fresh identifier (stored as [_id]), appends the record
    and returns the identifier as text. *)
Definition create_document (st : Store) (coll : string) (d : doc)
  : string * Store :=
  let o := next_oid st in
  (oid_str o,
   mkStore (products st ++ [("_id", VOid o) :: d]) (N.succ o)
           (trace st ++ [OpInsert coll d]) (db_name st) (collection_names st)).

(** Modelled from the spec: [db[coll].find_one(filter)]. *)
Definition find_one (st : Store) (coll : string) (filt : doc)
  : option doc * Store :=
  (find (matches filt) (products st), log st (OpFindOne coll filt)).

(** Modelled from the spec: [db[coll].count_documents(filter)]. *)
Definition count_documents (st : Store) (coll : string) (filt : doc)
  : nat * Store :=
  (length (filter (matches filt) (products st)), log st (OpCount coll filt)).

(** ** Product schema *)

Record ProductIn : Type := mkProductIn {
  title : string;
  description : option string;
  price : Q;
  category : string;
  image : option string;
  in_stock : bool
}.

(** [class ProductOut(ProductIn): id: str] *)
Record ProductOut : Type := mkProductOut {
  id : string;
  fields : ProductIn
}.

(** [Optional[str]] as a stored value. *)
Definition opt_value (o : option string) : value :=
  match o with Some s => VStr s | None => VNull end.

(** [product.dict()] *)
Definition product_dict (p : ProductIn) : doc :=
  [("title", VStr (title p)); ("description", opt_value (description p));
   ("price", VNum (price p)); ("category", VStr (category p));
   ("image", opt_value (image p)); ("in_stock", VBool (in_stock p))].

(** Pydantic checks of the [str] and [Optional[str]] fields: a string (or
    [None] for the optional ones), no coercion from other types. *)
Definition validate_str (v : value) : option string :=
  match v with VStr s => Some s | _ => None end.

Definition validate_opt_str (v : value) : option (option string) :=
  match v with VNull => Some None | VStr s => Some (Some s) | _ => None end.

(** The [ge=0] constraint of [price]. *)
Definition validate_price (q : Q) : option Q :=
  if Qle_bool 0 q then Some q else None.

(** Validation of a request body into [ProductIn] (FastAPI and pydantic,
    before the handler runs): [title], [price] and [category] required,
    [description] and [image] default to [None], [in_stock] to [True].
    Values are accepted with their JSON type; pydantic's lax coercions
    (numeric strings to float, ["true"] to bool, ...) are not modelled. *)
Definition validate_product_in (body : doc) : option ProductIn :=
  t <- (v <- lookup "title" body ;; validate_str v) ;;
  desc <- validate_opt_str (get body "description" VNull) ;;
  pr <- (v <- lookup "price" body ;;
         match v with VNum q => validate_price q | _ => None end) ;;
  c <- (v <- lookup "category" body ;; validate_str v) ;;
  img <- validate_opt_str (get body "image" VNull) ;;
  st <- match get body "in_stock" (VBool true) with
        | VBool b => Some b | _ => None end ;;
  Some (mkProductIn t desc pr c img st).

(** ** Python builtins used by the conversion *)

(** [str(v)]; the decimal rendering of a float is not modelled (it never
    reaches [str] in this program: only [_id] is passed to [str]). *)
Definition str_value (v : value) : string :=
  match v with
  | VNull => "None"
  | VBool true => "True"
  | VBool false => "False"
  | VNum _ => "<float>"
  | VStr s => s
  | VOid o => oid_str o
  | VOidBytes bs => String.concat "" (map (fun b => hex_acc 2 b "") bs)
  end.

(** [float(v)]: [None] and ObjectIds raise TypeError; parsing of strings
    is not modelled (a string is treated as unparseable). *)
Definition py_float (v : value) : option Q :=
  match v with
  | VNum q => Some q
  | VBool b => Some (if b then 1 else 0)
  | _ => None
  end.

(** [bool(v)]: truthiness. *)
Definition truthy (v : value) : bool :=
  match v with
  | VNull => false
  | VBool b => b
  | VNum q => negb (Qeq_bool q 0)
  | VStr s => negb (String.eqb s "")
  | VOid _ | VOidBytes _ => true
  end.

(** [_doc_to_product(doc)]: [None] when it raises (a [float()] failure or
    the pydantic validation of the constructed [ProductOut]). *)
Definition _doc_to_product (d : doc) : option ProductOut :=
  let i := str_value (get d "_id" VNull) in
  t <- validate_str (get d "title" VNull) ;;
  desc <- validate_opt_str (get d "description" VNull) ;;
  pf <- py_float (get d "price" (VNum 0)) ;;
  pr <- validate_price pf ;;
  c <- validate_str (get d "category" VNull) ;;
  img <- validate_opt_str (get d "image" VNull) ;;
  let st := truthy (get d "in_stock" (VBool true)) in
  Some (mkProductOut i (mkProductIn t desc pr c img st)).

(** ** Endpoints *)

(** The outcome of a request: a result, an [HTTPException] (status code
    and detail), or an unhandled exception. *)
Inductive response (A : Type) : Type :=
| Ok (a : A)
| HttpError (code : Z) (detail : string)
| Unhandled.
Arguments Ok {A} a.
Arguments HttpError {A} code detail.
Arguments Unhandled {A}.

Definition not_configured {A : Type} : response A :=
  HttpError 500 "Database not configured".

(** [[_doc_to_product(d) for d in docs]] *)
Fixpoint convert_all (docs : list doc) : option (list ProductOut) :=
  match docs with
  | [] => Some []
  | d :: ds => p <- _doc_to_product d ;; ps <- convert_all ds ;; Some (p :: ps)
  end.

(** [GET /api/products]: [category] is [Optional[str]], [limit] defaults
    to 50. The global handle [db] is the [option Store]. *)
Definition list_products (db : option Store) (category : option string)
  (limit : Z) : response (list ProductOut) * option Store :=
  match db with
  | None => (not_configured, db)
  | Some st =>
      let filt := match category with
                  | Some c => if String.eqb c "" then [] else [("category", VStr c)]
                  | None => []
                  end in
      let (docs, st') := get_documents st "product" filt limit in
      match convert_all docs with
      | Some outs => (Ok outs, Some st')
      | None => (Unhandled, Some st')
      end
  end.

(** [POST /api/products], the handler, called with a validated body. *)
Definition create_product (db : option Store) (product : ProductIn)
  : response string * option Store :=
  match db with
  | None => (not_configured, db)
  | Some st =>
      let (new_id, st') := create_document st "product" (product_dict product) in
      (Ok new_id, Some st')
  end.

(** [POST /api/products] as a request: FastAPI validates the body into
    [ProductIn] first and answers 422 when that fails. *)
Definition post_products (db : option Store) (body : doc)
  : response string * option Store :=
  match validate_product_in body with
  | None => (HttpError 422 "validation error", db)
  | Some p => create_product db p
  end.

(** [GET /api/products/{product_id}] *)
Definition get_product (db : option Store) (product_id : string)
  : response ProductOut * option Store :=
  match db with
  | None => (not_configured, db)
  | Some st =>
      match object_id product_id with
      | None => (HttpError 400 "Invalid product id", db)
      | Some oid =>
          let (found, st') := find_one st "product" [("_id", oid)] in
          match found with
          | None | Some [] => (HttpError 404 "Product not found", Some st')
          | Some d =>
              match _doc_to_product d with
              | Some out => (Ok out, Some st')
              | None => (Unhandled, Some st')
              end
          end
      end
  end.

(** The demo records of [seed_products]. *)
Definition demo : list doc :=
  [ [("title", VStr "NeoCube Pro");
     ("description", VStr "Futuristic modular cube speaker with reactive LEDs.");
     ("price", VNum (19999 # 100)); ("category", VStr "audio");
     ("image", VStr "https://images.unsplash.com/photo-1518779578993-ec3579fee39f?auto=format&fit=crop&w=800&q=60");
     ("in_stock", VBool true)];
    [("title", VStr "Iris Orbit Lamp");
     ("description", VStr "Iridescent smart lamp that orbits hues through the day.");
     ("price", VNum 129); ("category", VStr "lighting");
     ("image", VStr "https://images.unsplash.com/photo-1496307042754-b4aa456c4a2d?auto=format&fit=crop&w=800&q=60");
     ("in_stock", VBool true)];
    [("title", VStr "Glyph Headphones");
     ("description", VStr "Metallic over-ears with spatial audio and ANC.");
     ("price", VNum 249); ("category", VStr "audio");
     ("image", VStr "https://images.unsplash.com/photo-1518443747120-6f6f2d80b7a1?auto=format&fit=crop&w=800&q=60");
     ("in_stock", VBool true)];
    [("title", VStr "Prism Desk Mat");
     ("description", VStr "Soft-touch mat with subtle neon edge glow.");
     ("price", VNum 39); ("category", VStr "accessories");
     ("image", VStr "https://images.unsplash.com/photo-1473186578172-c141e6798cf4?auto=format&fit=crop&w=800&q=60");
     ("in_stock", VBool true)] ].

(** [for d in demo: create_document("product", d); inserted += 1] *)
Fixpoint insert_all (ds : list doc) (st : Store) (inserted : nat) : nat * Store :=
  match ds with
  | [] => (inserted, st)
  | d :: ds' =>
      let (_, st') := create_document st "product" d in
      insert_all ds' st' (S inserted)
  end.

(** [POST /api/seed] *)
Definition seed_products (db : option Store) : response nat * option Store :=
  match db with
  | None => (not_configured, db)
  | Some st =>
      let (n, st1) := count_documents st "product" [] in
      if Nat.ltb 0 n then (Ok 0%nat, Some st1)
      else let (inserted, st2) := insert_all demo st1 0 in (Ok inserted, Some st2)
  end.

(** ** The database diagnostic, [GET /test] *)

Record Report : Type := mkReport {
  backend : string;
  database : string;
  database_url : option string;
  database_name : option string;
  connection_status : string;
  collections : list string
}.

Definition set_database (r : Report) (s : string) : Report :=
  mkReport (backend r) s (database_url r) (database_name r)
           (connection_status r) (collections r).

(** A UTF-8 continuation byte (10xxxxxx). Python texts are held as their
    UTF-8 encoding; a character is a lead byte and its continuation bytes. *)
Definition is_cont (c : ascii) : bool :=
  let n := N_of_ascii c in ((128 <=? n) && (n <? 192))%N.

(** [s[:n]]: the first [n] characters (code points) of [s]. *)
Fixpoint take_chars (n : nat) (s : string) : string :=
  match s with
  | EmptyString => EmptyString
  | String c s' =>
      if is_cont c then String c (take_chars n s')
      else match n with
           | O => EmptyString
           | S n' => String c (take_chars n' s')
           end
  end.

(** [len(s)]: the number of characters (code points). *)
Fixpoint char_count (s : string) : nat :=
  match s with
  | EmptyString => O
  | String c s' => ((if is_cont c then 0 else 1) + char_count s')%nat
  end.

(** [str(e)[:50]] *)
Definition trunc50 (msg : string) : string := take_chars 50 msg.

(** [os.getenv(name)] used as a condition: unset or empty is false. *)
Definition env_set (v : option string) : bool :=
  match v with Some s => negb (String.eqb s "") | None => false end.

(** [test_database()]: the body of the outer [try] on a connected handle;
    the right side carries the message of an exception that escapes it. *)
Definition test_connected (st : Store) (r : Report) : Report + string :=
  let r1 := mkReport (backend r) "✅ Available" (Some "✅ Configured")
                     (database_name r) (connection_status r) (collections r) in
  match db_name st with
  | NameRaises msg => inr msg
  | nm =>
      let n := match nm with HasName s => s | _ => "✅ Connected" end in
      let r2 := mkReport (backend r1) (database r1) (database_url r1)
                         (Some n) "Connected" (collections r1) in
      match collection_names st with
      | inr cs =>
          inl (mkReport (backend r2) "✅ Connected & Working" (database_url r2)
                        (database_name r2) (connection_status r2) (firstn 10 cs))
      | inl msg =>
          inl (set_database r2 ("⚠️  Connected but Error: " ++ trunc50 msg))
      end
  end.

Definition test_database (db : option Store) (getenv : string -> option string)
  : Report :=
  let r0 := mkReport "✅ Running" "❌ Not Available" None None "Not Connected" [] in
  let r := match db with
           | Some st =>
               match test_connected st r0 with
               | inl r' => r'
               | inr msg =>
                   (* the outer handler sees the response as it stood: only
                      the first assignments happened before [db.name] *)
                   set_database
                     (mkReport (backend r0) "✅ Available" (Some "✅ Configured")
                               (database_name r0) (connection_status r0)
                               (collections r0))
                     ("❌ Error: " ++ trunc50 msg)
               end
           | None => set_database r0 "⚠️  Available but not initialized"
           end in
  mkReport (backend r) (database r)
           (Some (if env_set (getenv "DATABASE_URL") then "✅ Set" else "❌ Not Set"))
           (Some (if env_set (getenv "DATABASE_NAME") then "✅ Set" else "❌ Not Set"))
           (connection_status r) (collections r).

(** ** Auxiliary definitions for the statements *)

(** The identifier the store hands out next is not yet taken. *)
Definition fresh_next (st : Store) : bool :=
  forallb (fun d => negb (matches [("_id", VOid (next_oid st))] d)) (products st).

Definition products_of (db : option Store) : list doc :=
  match db with Some st => products st | None => [] end.

(** The records the store holds after inserting [ds] from identifier [o]. *)
Fixpoint with_ids (o : N) (ds : list doc) : list doc :=
  match ds with
  | [] => []
  | d :: ds' => (("_id", VOid o) :: d) :: with_ids (N.succ o) ds'
  end.

(** A small store used by the examples. *)
Definition sample_store : Store :=
  mkStore [("_id", VOid 7) :: product_dict
             (mkProductIn "Glyph Headphones" None 249 "audio" None true)]
          8 [] (HasName "shop") (inr ["product"]).

(** A stored record the conversion accepts. *)
Definition converts (d : doc) : bool :=
  match _doc_to_product d with Some _ => true | None => false end.

(** Every stored record carries an ObjectId below the next one handed out. *)
Definition ids_below (st : Store) : bool :=
  forallb (fun d => match lookup "_id" d with
                    | Some (VOid o) => N.ltb o (next_oid st)
                    | _ => false
                    end) (products st).

(** The store invariant kept by the endpoints: every record converts and
    identifiers are below the next one. *)
Definition store_inv (st : Store) : bool :=
  forallb converts (products st) && ids_below st.

(** The invariant on the global handle ([None] trivially keeps it). *)
Definition db_inv (db : option Store) : bool :=
  match db with Some st => store_inv st | None => true end.

(** An empty store, for the examples. *)
Definition empty_store : Store :=
  mkStore [] 100 [] NoName (inr []).

(** ** Lemmas *)

Lemma hex_val_digit (d : N) : (d < 16)%N -> hex_val (hex_digit d) = Some d.
Proof.
  intros H.
  assert (d = 0 \/ d = 1 \/ d = 2 \/ d = 3 \/ d = 4 \/ d = 5 \/ d = 6 \/ d = 7 \/
          d = 8 \/ d = 9 \/ d = 10 \/ d = 11 \/ d = 12 \/ d = 13 \/ d = 14 \/
          d = 15)%N as Hd by lia.
  repeat destruct Hd as [Hd | Hd]; subst; reflexivity.
Qed.

Lemma parse_hex_acc (k : nat) : forall n acc a,
  parse_hex (hex_acc k n acc) a
  = parse_hex acc (a * 16 ^ N.of_nat k + n mod 16 ^ N.of_nat k)%N.
Proof.
  induction k as [|k IH]; intros n acc a; simpl hex_acc.
  - cbn. rewrite N.mod_1_r. f_equal. lia.
  - rewrite IH. cbn [parse_hex]. rewrite hex_val_digit by (apply N.mod_lt; lia).
    f_equal.
    rewrite Nat2N.inj_succ, N.pow_succ_r', N.Div0.mod_mul_r.
    lia.
Qed.

Lemma length_hex_acc (k : nat) : forall n acc,
  String.length (hex_acc k n acc) = (k + String.length acc)%nat.
Proof.
  induction k as [|k IH]; intros n acc; simpl; [reflexivity|].
  rewrite IH. simpl. lia.
Qed.

(** The text of an ObjectId parses back to it. *)
Lemma parse_oid_str (o : N) : (o < 2 ^ 96)%N -> parse_oid (oid_str o) = Some o.
Proof.
  intros H. unfold parse_oid, oid_str.
  rewrite length_hex_acc. simpl Nat.eqb. cbv iota.
  rewrite parse_hex_acc. simpl. f_equal.
  rewrite N.mod_small; [reflexivity|].
  exact H.
Qed.

Lemma hex_val_not_space (c : ascii) (d : N) :
  hex_val c = Some d -> is_space c = false.
Proof.
  intros H.
  destruct c as [[] [] [] [] [] [] [] []]; cbv in H |- *;
    first [reflexivity | discriminate H].
Qed.

(** On a text of [2 n] hexadecimal digits, [bytes.fromhex] gives [n] bytes
    whose big-endian value is the text's hexadecimal value. *)
Lemma fromhex_hex (n : nat) : forall s acc r,
  String.length s = (2 * n)%nat -> parse_hex s acc = Some r ->
  exists bs, fromhex s = Some bs /\ List.length bs = n /\ bytes_val acc bs = r.
Proof.
  induction n as [|n IH]; intros s acc r Hl Hp.
  - destruct s; [|discriminate]. simpl in Hp. injection Hp as <-.
    exists []. split; [reflexivity|]. split; reflexivity.
  - destruct s as [|c1 [|c2 s]]; simpl in Hl; try lia.
    simpl in Hp.
    destruct (hex_val c1) as [h|] eqn:E1; [|discriminate].
    destruct (hex_val c2) as [l|] eqn:E2; [|discriminate].
    destruct (IH s (acc * 256 + (h * 16 + l))%N r) as [bs [Hb [Hlen Hv]]];
      [lia | rewrite <- Hp; f_equal; lia |].
    exists ((h * 16 + l)%N :: bs). simpl.
    rewrite (hex_val_not_space c1 h E1), E1, E2, Hb.
    split; [reflexivity|]. split; [simpl; lia|]. exact Hv.
Qed.

(** A text [parse_oid] reads is one bson turns into that 12-byte ObjectId. *)
Lemma parse_oid_object_id (s : string) (o : N) :
  parse_oid s = Some o -> object_id s = Some (VOid o).
Proof.
  unfold parse_oid, object_id.
  destruct (Nat.eqb (String.length s) 24) eqn:E; [|discriminate].
  apply Nat.eqb_eq in E. intros Hp.
  destruct (fromhex_hex 12 s 0 o) as [bs [Hb [Hl Hv]]]; [lia | exact Hp |].
  rewrite Hb. unfold oid_of_bytes. rewrite Hl. simpl. rewrite Hv. reflexivity.
Qed.

Lemma find_none {A} (f : A -> bool) (l : list A) :
  forallb (fun x => negb (f x)) l = true -> find f l = None.
Proof.
  induction l as [|x l IH]; simpl; [reflexivity|].
  intros H. apply andb_true_iff in H as [Hx Hl].
  destruct (f x); [discriminate|]. auto.
Qed.

Lemma find_app_fresh {A} (f : A -> bool) (l : list A) (x : A) :
  forallb (fun y => negb (f y)) l = true -> f x = true -> find f (l ++ [x]) = Some x.
Proof.
  induction l as [|y l IH]; simpl; intros H Hx.
  - rewrite Hx. reflexivity.
  - apply andb_true_iff in H as [Hy Hl].
    destruct (f y); [discriminate|]. auto.
Qed.

Lemma value_eqb_str (c : string) (v : value) :
  value_eqb (VStr c) v = true -> v = VStr c.
Proof.
  destruct v; simpl; try discriminate.
  intros H. apply String.eqb_eq in H. subst. reflexivity.
Qed.

Lemma char_count_take_chars (s : string) : forall n,
  (char_count (take_chars n s) <= n)%nat.
Proof.
  induction s as [|c s IH]; intros n; simpl; [lia|].
  destruct (is_cont c) eqn:E; simpl; rewrite ?E.
  - apply IH.
  - destruct n as [|n]; simpl; [lia|]. rewrite E. specialize (IH n). lia.
Qed.

Lemma prefix_take_chars (s : string) : forall n,
  prefix (take_chars n s) s = true.
Proof.
  induction s as [|c s IH]; intros n; simpl; [reflexivity|].
  destruct (is_cont c); [|destruct n as [|n]]; simpl; try reflexivity;
    destruct (ascii_dec c c) as [_|Hne]; [apply IH | contradiction Hne; reflexivity
                                           | apply IH | contradiction Hne; reflexivity].
Qed.

Lemma take_chars_short (s : string) : forall n,
  (char_count s <= n)%nat -> take_chars n s = s.
Proof.
  induction s as [|c s IH]; intros n H; simpl in *; [reflexivity|].
  destruct (is_cont c); simpl in H.
  - rewrite IH by exact H. reflexivity.
  - destruct n as [|n]; [lia|]. rewrite IH by lia. reflexivity.
Qed.

Lemma Forall_firstn {A} (P : A -> Prop) (n : nat) (l : list A) :
  Forall P l -> Forall P (firstn n l).
Proof.
  revert n. induction l as [|x l IH]; intros n H; destruct n; simpl; auto.
  inversion H; subst. constructor; auto.
Qed.

Lemma convert_all_category (c : string) (docs : list doc) (outs : list ProductOut) :
  Forall (fun d => lookup "category" d = Some (VStr c)) docs ->
  convert_all docs = Some outs ->
  Forall (fun o => category (fields o) = c) outs.
Proof.
  revert outs. induction docs as [|d ds IH]; intros outs Hd Hc; simpl in Hc.
  - injection Hc as <-. constructor.
  - inversion Hd as [|? ? Hcat Hds]; subst.
    destruct (_doc_to_product d) as [p|] eqn:Ep; [|discriminate].
    destruct (convert_all ds) as [ps|] eqn:Eps; [|discriminate].
    injection Hc as <-. constructor; [|auto].
    unfold _doc_to_product, get in Ep. rewrite Hcat in Ep.
    repeat match type of Ep with
           | context [match ?m with Some _ => _ | None => None end] =>
               destruct m eqn:?; [|discriminate]
           end.
    injection Ep as <-. simpl in *. congruence.
Qed.

(** ** Claims *)

(** C1: for a valid product input (price >= 0), creating it and then
    getting it by the returned id gives back every input field unchanged,
    with the returned (newly assigned) id. The store hands out a fresh
    identifier within the 96 bits of an ObjectId. *)
Theorem create_then_get (st : Store) (p : ProductIn) (new_id : string)
  (db' : option Store) :
  Qle_bool 0 (price p) = true ->
  fresh_next st = true ->
  (next_oid st < 2 ^ 96)%N ->
  create_product (Some st) p = (Ok new_id, db') ->
  new_id = oid_str (next_oid st) /\
  exists db'', get_product db' new_id = (Ok (mkProductOut new_id p), db'').
Proof.
  intros Hprice Hfresh Hbound Hcreate.
  unfold create_product, create_document in Hcreate.
  injection Hcreate as <- <-. split; [reflexivity|].
  unfold get_product.
  rewrite (parse_oid_object_id _ _ (parse_oid_str _ Hbound)).
  unfold find_one. simpl products.
  rewrite find_app_fresh.
  - destruct p as [t desc pr c img stock]; simpl in Hprice |- *.
    unfold _doc_to_product, get, validate_price. simpl.
    rewrite Hprice.
    destruct desc, img; eexists; reflexivity.
  - exact Hfresh.
  - simpl. rewrite N.eqb_refl. reflexivity.
Qed.

Lemma create_then_get_witness :
  (Qle_bool 0 249 = true /\ fresh_next sample_store = true /\
   (next_oid sample_store < 2 ^ 96)%N /\
   create_product (Some sample_store)
     (mkProductIn "Prism Desk Mat" (Some "mat") 249 "accessories" None false)
   = (Ok (oid_str 8), Some (snd (create_document sample_store "product"
        (product_dict (mkProductIn "Prism Desk Mat" (Some "mat") 249
                                   "accessories" None false)))))) /\
  (oid_str 8 = oid_str (next_oid sample_store) /\
   exists db'', get_product
     (Some (snd (create_document sample_store "product"
        (product_dict (mkProductIn "Prism Desk Mat" (Some "mat") 249
                                   "accessories" None false)))))
     (oid_str 8)
     = (Ok (mkProductOut (oid_str 8)
             (mkProductIn "Prism Desk Mat" (Some "mat") 249 "accessories" None false)),
        db'')).
Proof.
  split.
  - split; [reflexivity|]. split; [reflexivity|]. split; [vm_compute; reflexivity|].
    reflexivity.
  - apply (create_then_get sample_store
             (mkProductIn "Prism Desk Mat" (Some "mat") 249 "accessories" None false));
      [reflexivity | reflexivity | vm_compute; reflexivity | reflexivity].
Defined.

(** C2: with no store connection ([db] is [None]) list, create, get and
    seed all answer the configuration error (500, fixed message) and leave
    the (absent) store alone, while the diagnostic still produces its
    report, whose [database] field says the database is not initialized
    and whose connection status is "Not Connected". *)
Theorem no_db_configuration_error (category : option string) (limit : Z)
  (p : ProductIn) (product_id : string) (getenv : string -> option string) :
  list_products None category limit = (HttpError 500 "Database not configured", None) /\
  create_product None p = (HttpError 500 "Database not configured", None) /\
  get_product None product_id = (HttpError 500 "Database not configured", None) /\
  seed_products None = (HttpError 500 "Database not configured", None) /\
  database (test_database None getenv) = "⚠️  Available but not initialized" /\
  connection_status (test_database None getenv) = "Not Connected" /\
  collections (test_database None getenv) = [].
Proof. repeat split. Qed.

(** C3: an id from which bson cannot build an ObjectId (not 24
    characters, or not hexadecimal byte pairs separated by whitespace)
    gets the malformed-id error (400), decided before any query: the store
    is left exactly as it was, its trace of operations included. *)
Theorem malformed_id_no_query (st : Store) (product_id : string) :
  object_id product_id = None ->
  get_product (Some st) product_id = (HttpError 400 "Invalid product id", Some st).
Proof.
  intros H. unfold get_product. rewrite H. reflexivity.
Qed.

Lemma malformed_id_no_query_witness :
  object_id "zzzzzzzzzzzzzzzzzzzzzzzz" = None /\
  get_product (Some sample_store) "zzzzzzzzzzzzzzzzzzzzzzzz"
  = (HttpError 400 "Invalid product id", Some sample_store).
Proof.
  split; [reflexivity|]. apply malformed_id_no_query. reflexivity.
Defined.

(** C4: a create request whose price is negative fails validation (422)
    and the store is unchanged: no write. *)
Theorem negative_price_rejected (db : option Store) (body : doc) (q : Q) :
  lookup "price" body = Some (VNum q) ->
  (q < 0)%Q ->
  post_products db body = (HttpError 422 "validation error", db).
Proof.
  intros Hp Hneg. unfold post_products.
  assert (Hv : validate_product_in body = None).
  { unfold validate_product_in. rewrite Hp.
    assert (Hq : validate_price q = None).
    { unfold validate_price. destruct (Qle_bool 0 q) eqn:E; [|reflexivity].
      apply Qle_bool_iff in E. exfalso. apply (Qlt_not_le q 0); assumption. }
    rewrite Hq.
    destruct (lookup "title" body) as [[]|]; simpl; try reflexivity.
    destruct (validate_opt_str _); reflexivity. }
  rewrite Hv. reflexivity.
Qed.

Lemma negative_price_rejected_witness :
  let body := [("title", VStr "NeoCube Pro"); ("price", VNum (-1));
               ("category", VStr "audio")] in
  (lookup "price" body = Some (VNum (-1)) /\ (-1 < 0)%Q) /\
  post_products (Some sample_store) body
  = (HttpError 422 "validation error", Some sample_store).
Proof.
  split; [split; [reflexivity | vm_compute; reflexivity]|].
  apply (negative_price_rejected (Some sample_store) _ (-1));
    [reflexivity | vm_compute; reflexivity].
Defined.

(** C10: an empty category string applies no filter: the listing is the
    one without a category. *)
Theorem empty_category_no_filter (db : option Store) (limit : Z) :
  list_products db (Some "") limit = list_products db None limit.
Proof. destruct db; reflexivity. Qed.

(** C5: on an empty collection seed inserts the 4 demo records in order
    (with consecutive fresh identifiers) and returns 4; on a non-empty one
    it returns 0 and the collection is unchanged; so it returns 0 or 4. *)
Theorem seed_zero_or_four (st : Store) :
  let '(r, db') := seed_products (Some st) in
  (products st = [] ->
     r = Ok 4%nat /\ products_of db' = with_ids (next_oid st) demo) /\
  (products st <> [] -> r = Ok 0%nat /\ products_of db' = products st) /\
  (r = Ok 0%nat \/ r = Ok 4%nat).
Proof.
  destruct st as [ps nxt tr nm cs]. simpl products.
  destruct ps as [|d ps].
  - cbn. split; [intros _; split; reflexivity|].
    split; [intros H; contradiction H; reflexivity|]. right; reflexivity.
  - cbn. split; [discriminate|].
    split; [intros _; split; reflexivity|]. left; reflexivity.
Qed.

(** C6: the conversion turns the stored [_id] into [id] with [str], and
    with [title] and [category] stored as strings it never raises when
    optional fields are missing (present ones being well typed): a missing
    [description] or [image] becomes [None], a missing [in_stock] [True]
    and a missing [price] the float 0. *)
Theorem doc_to_product_defaults (d : doc) (t c : string) :
  lookup "title" d = Some (VStr t) ->
  lookup "category" d = Some (VStr c) ->
  match lookup "description" d with
  | Some v => validate_opt_str v <> None | None => True end ->
  match lookup "image" d with
  | Some v => validate_opt_str v <> None | None => True end ->
  match lookup "price" d with
  | Some v => exists q, py_float v = Some q /\ Qle_bool 0 q = true
  | None => True end ->
  exists out, _doc_to_product d = Some out /\
    id out = str_value (get d "_id" VNull) /\
    title (fields out) = t /\ category (fields out) = c /\
    (lookup "description" d = None -> description (fields out) = None) /\
    (lookup "image" d = None -> image (fields out) = None) /\
    (lookup "in_stock" d = None -> in_stock (fields out) = true) /\
    (lookup "price" d = None -> price (fields out) = 0%Q).
Proof.
  intros Ht Hc Hdesc Himg Hpr.
  unfold _doc_to_product, get. rewrite Ht, Hc. cbn [validate_str].
  destruct (lookup "description" d) as [vd|] eqn:Ed;
    [destruct (validate_opt_str vd) as [od|] eqn:Evd; [|contradiction Hdesc; reflexivity]|];
  (destruct (lookup "image" d) as [vi|] eqn:Ei;
    [destruct (validate_opt_str vi) as [oi|] eqn:Evi; [|contradiction Himg; reflexivity]|]);
  (destruct (lookup "price" d) as [vp|] eqn:Ep;
    [destruct Hpr as [q [Hq Hq0]]; rewrite Hq; unfold validate_price; rewrite Hq0|]);
  cbn; eexists; (split; [reflexivity|]); repeat split; intros;
  try discriminate;
  try match goal with H : lookup _ _ = None |- _ => rewrite H end;
  reflexivity.
Qed.

Lemma doc_to_product_defaults_witness :
  let d := [("_id", VOid 42); ("title", VStr "Iris Orbit Lamp");
            ("category", VStr "lighting")] in
  (lookup "title" d = Some (VStr "Iris Orbit Lamp") /\
   lookup "category" d = Some (VStr "lighting")) /\
  exists out, _doc_to_product d = Some out /\
    id out = str_value (get d "_id" VNull) /\
    title (fields out) = "Iris Orbit Lamp" /\ category (fields out) = "lighting" /\
    (lookup "description" d = None -> description (fields out) = None) /\
    (lookup "image" d = None -> image (fields out) = None) /\
    (lookup "in_stock" d = None -> in_stock (fields out) = true) /\
    (lookup "price" d = None -> price (fields out) = 0%Q).
Proof.
  split; [split; reflexivity|].
  apply (doc_to_product_defaults _ "Iris Orbit Lamp" "lighting");
    simpl; first [reflexivity | exact I].
Defined.

(** C7: a well-formed id that no stored record carries gets not-found
    (404). *)
Theorem absent_id_not_found (st : Store) (product_id : string) (oid : N) :
  parse_oid product_id = Some oid ->
  forallb (fun d => negb (matches [("_id", VOid oid)] d)) (products st) = true ->
  get_product (Some st) product_id
  = (HttpError 404 "Product not found",
     Some (log st (OpFindOne "product" [("_id", VOid oid)]))).
Proof.
  intros Hp Habs. unfold get_product. rewrite (parse_oid_object_id _ _ Hp).
  unfold find_one. rewrite find_none by exact Habs. reflexivity.
Qed.

Lemma absent_id_not_found_witness :
  (parse_oid "00000000000000000000000a" = Some 10%N /\
   forallb (fun d => negb (matches [("_id", VOid 10)] d)) (products sample_store) = true) /\
  get_product (Some sample_store) "00000000000000000000000a"
  = (HttpError 404 "Product not found",
     Some (log sample_store (OpFindOne "product" [("_id", VOid 10)]))).
Proof.
  split; [split; reflexivity|].
  apply absent_id_not_found; reflexivity.
Defined.

(** C8 (as stated, counterexample): with the category parameter given as
    the empty string the listing is not restricted to records whose
    category is that string: the stored "audio" record comes back. *)
Lemma category_filter_empty_string_counterexample :
  ~ (forall outs db',
       list_products (Some sample_store) (Some "") 50 = (Ok outs, db') ->
       Forall (fun o => category (fields o) = "") outs).
Proof.
  intros H.
  specialize (H _ _ eq_refl).
  inversion H as [|? ? Hc]. discriminate Hc.
Qed.

Lemma filter_matches_nil (l : list doc) : filter (matches []) l = l.
Proof. induction l as [|d l IH]; simpl; [reflexivity|]. rewrite IH. reflexivity. Qed.

(** C8 (amended): with a non-empty category string [c], every listed
    product has category [c], and every record the store returned holds
    exactly the string [c] in its [category] field; with the empty string
    no filter is applied: the store is queried with the empty filter and
    the answer is the first [limit] records of the collection, converted. *)
Theorem category_filter_exact (st : Store) (limit : Z) :
  (forall c outs db',
     c <> "" ->
     list_products (Some st) (Some c) limit = (Ok outs, db') ->
     Forall (fun d => lookup "category" d = Some (VStr c))
            (fst (get_documents st "product" [("category", VStr c)] limit)) /\
     Forall (fun o => category (fields o) = c) outs) /\
  list_products (Some st) (Some "") limit
  = (match convert_all (firstn (Z.to_nat limit) (products st)) with
     | Some outs => Ok outs
     | None => Unhandled
     end,
     Some (log st (OpFind "product" [] limit))).
Proof.
  split.
  - intros c outs db' Hne Hl.
    assert (Hdocs : Forall (fun d => lookup "category" d = Some (VStr c))
                      (fst (get_documents st "product" [("category", VStr c)] limit))).
    { simpl. apply Forall_firstn. apply Forall_forall.
      intros d Hin. apply filter_In in Hin as [_ Hm].
      unfold matches in Hm. simpl in Hm.
      destruct (lookup "category" d) as [v|] eqn:E; [|discriminate].
      rewrite andb_true_r in Hm. apply value_eqb_str in Hm. congruence. }
    split; [exact Hdocs|].
    unfold list_products in Hl.
    apply String.eqb_neq in Hne. rewrite Hne in Hl.
    destruct (get_documents st "product" [("category", VStr c)] limit) as [docs st'] eqn:Eg.
    destruct (convert_all docs) as [ps|] eqn:Ec; [|discriminate].
    injection Hl as <- _.
    apply (convert_all_category c docs); [|exact Ec].
    exact Hdocs.
  - unfold list_products, get_documents. cbn [String.eqb fst snd].
    rewrite filter_matches_nil.
    destruct (convert_all _); reflexivity.
Qed.

Lemma category_filter_exact_witness :
  "audio" <> "" /\
  list_products (Some sample_store) (Some "audio") 50
  = (Ok [mkProductOut (oid_str 7)
           (mkProductIn "Glyph Headphones" None 249 "audio" None true)],
     Some (log sample_store (OpFind "product" [("category", VStr "audio")] 50))) /\
  (Forall (fun d => lookup "category" d = Some (VStr "audio"))
          (fst (get_documents sample_store "product" [("category", VStr "audio")] 50)) /\
   Forall (fun o => category (fields o) = "audio")
          [mkProductOut (oid_str 7)
             (mkProductIn "Glyph Headphones" None 249 "audio" None true)]).
Proof.
  split; [discriminate|]. split; [reflexivity|].
  apply (proj1 (category_filter_exact sample_store 50) "audio" _
           (Some (log sample_store (OpFind "product" [("category", VStr "audio")] 50))));
    [discriminate | reflexivity].
Defined.

(** C9: the diagnostic always yields a report (its function is total: the
    failures of [db.name] and of [list_collection_names()] are caught),
    with at most 10 collection names. A failure is reported in [database]
    as a fixed prefix followed by [str(e)[:50]]: the first 50 characters
    of the exception message, the whole message when it is shorter. *)
Theorem test_database_total_bounded (db : option Store)
  (getenv : string -> option string) :
  let r := test_database db getenv in
  (length (collections r) <= 10)%nat /\
  database r =
    match db with
    | None => "⚠️  Available but not initialized"
    | Some st =>
        match db_name st, collection_names st with
        | NameRaises m, _ => "❌ Error: " ++ trunc50 m
        | _, inl m => "⚠️  Connected but Error: " ++ trunc50 m
        | _, inr _ => "✅ Connected & Working"
        end
    end /\
  (forall m, (char_count (trunc50 m) <= 50)%nat /\ prefix (trunc50 m) m = true /\
             ((char_count m <= 50)%nat -> trunc50 m = m)).
Proof.
  split; [|split].
  - unfold test_database. destruct db as [st|]; simpl; [|lia].
    unfold test_connected.
    destruct (db_name st); simpl;
      [destruct (collection_names st) as [msg|cs]; simpl..|]; try lia;
      exact (firstn_le_length 10 cs).
  - unfold test_database. destruct db as [st|]; simpl; [|reflexivity].
    unfold test_connected.
    destruct (db_name st); simpl;
      [destruct (collection_names st); reflexivity..|reflexivity].
  - intros m. split; [apply char_count_take_chars|]. split; [apply prefix_take_chars|].
    apply take_chars_short.
Qed.

(** ** Further properties of the endpoints *)

Lemma stored_dict_converts (o : N) (p : ProductIn) :
  Qle_bool 0 (price p) = true ->
  _doc_to_product (("_id", VOid o) :: product_dict p) = Some (mkProductOut (oid_str o) p).
Proof.
  intros H. destruct p as [t desc pr c img stock]; simpl in H.
  unfold _doc_to_product, get, validate_price. simpl. rewrite H.
  destruct desc, img; reflexivity.
Qed.

(** A product input re-validates to itself from its [dict()] exactly when
    its price is non-negative. *)
Theorem validate_dict_roundtrip (p : ProductIn) :
  Qle_bool 0 (price p) = true ->
  validate_product_in (product_dict p) = Some p.
Proof.
  intros H. destruct p as [t desc pr c img stock]; simpl in H.
  unfold validate_product_in, get, validate_price. simpl. rewrite H.
  destruct desc, img; reflexivity.
Qed.

Lemma validate_dict_roundtrip_witness :
  Qle_bool 0 129 = true /\
  validate_product_in (product_dict (mkProductIn "Iris Orbit Lamp" None 129 "lighting" (Some "u") true))
  = Some (mkProductIn "Iris Orbit Lamp" None 129 "lighting" (Some "u") true).
Proof.
  split; [reflexivity|]. apply validate_dict_roundtrip. reflexivity.
Defined.

(** A record stored by [create_product] (its [dict()] with an ObjectId)
    converts back to the input, with the id's text as [id]. *)
Theorem stored_product_converts (o : N) (p : ProductIn) :
  Qle_bool 0 (price p) = true ->
  _doc_to_product (("_id", VOid o) :: product_dict p) = Some (mkProductOut (oid_str o) p).
Proof. apply stored_dict_converts. Qed.

Lemma stored_product_converts_witness :
  Qle_bool 0 39 = true /\
  _doc_to_product (("_id", VOid 5) :: product_dict (mkProductIn "Prism Desk Mat" (Some "d") 39 "accessories" None false))
  = Some (mkProductOut (oid_str 5) (mkProductIn "Prism Desk Mat" (Some "d") 39 "accessories" None false)).
Proof.
  split; [reflexivity|]. apply stored_product_converts. reflexivity.
Defined.

(** A create request missing [title], [price] or [category] is refused
    with 422 and nothing is written. *)
Theorem missing_required_rejected (db : option Store) (body : doc) :
  lookup "title" body = None \/ lookup "price" body = None \/
  lookup "category" body = None ->
  post_products db body = (HttpError 422 "validation error", db).
Proof.
  intros H. unfold post_products.
  assert (Hv : validate_product_in body = None).
  { unfold validate_product_in.
    destruct H as [H | [H | H]]; rewrite H;
      repeat match goal with
             | |- context [match ?m with Some _ => _ | None => None end] =>
                 destruct m
             end; reflexivity. }
  rewrite Hv. reflexivity.
Qed.

Lemma missing_required_rejected_witness :
  (lookup "title" [("price", VNum 3); ("category", VStr "audio")] = None \/
   lookup "price" [("price", VNum 3); ("category", VStr "audio")] = None \/
   lookup "category" [("price", VNum 3); ("category", VStr "audio")] = None) /\
  post_products (Some sample_store) [("price", VNum 3); ("category", VStr "audio")]
  = (HttpError 422 "validation error", Some sample_store).
Proof.
  split; [left; reflexivity|]. apply missing_required_rejected. left; reflexivity.
Defined.

Lemma validate_price_nonneg (body : doc) (p : ProductIn) :
  validate_product_in body = Some p -> Qle_bool 0 (price p) = true.
Proof.
  unfold validate_product_in. intros H.
  repeat match type of H with
         | context [match ?m with Some _ => _ | None => None end] =>
             let E := fresh "E" in destruct m eqn:E; [|discriminate]
         end.
  injection H as <-. simpl.
  destruct (lookup "price" body) as [[]|]; try discriminate.
  unfold validate_price in E1.
  destruct (Qle_bool 0 _) eqn:Hq; [injection E1 as <-; exact Hq | discriminate].
Qed.

Lemma create_document_inv (st : Store) (coll : string) (d : doc) :
  store_inv st = true ->
  (forall o, converts (("_id", VOid o) :: d) = true) ->
  store_inv (snd (create_document st coll d)) = true.
Proof.
  unfold store_inv, ids_below. intros H Hd.
  apply andb_true_iff in H as [Hc Hi].
  unfold create_document; cbn [snd products next_oid].
  rewrite !forallb_app, Hc. cbn [forallb]. rewrite Hd. cbn [andb].
  apply andb_true_iff. split.
  - rewrite forallb_forall in Hi |- *. intros x Hx. specialize (Hi x Hx).
    destruct (lookup "_id" x) as [[]|]; try discriminate.
    apply N.ltb_lt in Hi. apply N.ltb_lt. lia.
  - simpl. rewrite andb_true_r. apply N.ltb_lt. lia.
Qed.

Lemma insert_all_inv (ds : list doc) : forall st n,
  store_inv st = true ->
  Forall (fun d => forall o, converts (("_id", VOid o) :: d) = true) ds ->
  store_inv (snd (insert_all ds st n)) = true.
Proof.
  induction ds as [|d ds IH]; intros st n H Hds; simpl; [exact H|].
  inversion Hds; subst.
  destruct (create_document st "product" d) as [i st'] eqn:E.
  apply IH; [|assumption].
  replace st' with (snd (create_document st "product" d)) by (rewrite E; reflexivity).
  apply create_document_inv; assumption.
Qed.

Lemma demo_converts :
  Forall (fun d => forall o, converts (("_id", VOid o) :: d) = true) demo.
Proof. repeat constructor; intros o; reflexivity. Qed.

(** Every endpoint that touches the store keeps the invariant: all
    records convert and identifiers stay below the next one (creating
    through a request, seeding, listing and getting). *)
Theorem endpoints_keep_store_inv (db : option Store) (body : doc)
  (category : option string) (limit : Z) (product_id : string) :
  db_inv db = true ->
  db_inv (snd (post_products db body)) = true /\
  db_inv (snd (seed_products db)) = true /\
  db_inv (snd (list_products db category limit)) = true /\
  db_inv (snd (get_product db product_id)) = true.
Proof.
  intros H. destruct db as [st|];
    [|unfold post_products; destruct (validate_product_in body); repeat split].
  simpl in H. repeat split.
  - unfold post_products.
    destruct (validate_product_in body) as [p|] eqn:Ev; [|exact H].
    unfold create_product.
    destruct (create_document st "product" (product_dict p)) as [i st'] eqn:E.
    simpl.
    replace st' with (snd (create_document st "product" (product_dict p)))
      by (rewrite E; reflexivity).
    apply create_document_inv; [exact H|].
    intros o. unfold converts.
    rewrite stored_dict_converts by (eapply validate_price_nonneg; exact Ev).
    reflexivity.
  - unfold seed_products, count_documents. cbv beta iota zeta.
    match goal with
    | |- context [if Nat.ltb 0 ?n then _ else _] => destruct (Nat.ltb 0 n)
    end; [exact H|].
    destruct (insert_all demo _ 0) as [k st2] eqn:E. simpl.
    replace st2 with (snd (insert_all demo (log st (OpCount "product" [])) 0))
      by (rewrite E; reflexivity).
    apply insert_all_inv; [exact H | exact demo_converts].
  - unfold list_products. simpl.
    destruct (convert_all _); exact H.
  - unfold get_product.
    destruct (object_id product_id) as [oid|]; [|exact H].
    simpl. destruct (find _ _) as [[|x d]|]; [exact H| |exact H].
    destruct (_doc_to_product _); exact H.
Qed.

Lemma endpoints_keep_store_inv_witness :
  db_inv (Some sample_store) = true /\
  (db_inv (snd (post_products (Some sample_store) [("title", VStr "t"); ("price", VNum 1); ("category", VStr "c")])) = true /\
   db_inv (snd (seed_products (Some sample_store))) = true /\
   db_inv (snd (list_products (Some sample_store) None 50)) = true /\
   db_inv (snd (get_product (Some sample_store) "x")) = true).
Proof.
  split; [reflexivity|]. apply endpoints_keep_store_inv. reflexivity.
Defined.

(** Seeding twice: the second call returns 0 and leaves the records the
    first call left. *)
Theorem seed_twice (st : Store) :
  fst (seed_products (snd (seed_products (Some st)))) = Ok 0%nat /\
  products_of (snd (seed_products (snd (seed_products (Some st)))))
  = products_of (snd (seed_products (Some st))).
Proof.
  destruct st as [[|d ps] nxt tr nm cs]; split; reflexivity.
Qed.

(** The diagnostic reports "Connected" exactly when there is a handle whose
    [name] attribute could be read. *)
Theorem test_database_connected_iff (db : option Store)
  (getenv : string -> option string) :
  connection_status (test_database db getenv) = "Connected" <->
  exists st, db = Some st /\ forall m, db_name st <> NameRaises m.
Proof.
  destruct db as [st|]; simpl.
  - unfold test_connected.
    destruct (db_name st) as [s| |msg] eqn:En; simpl;
      [destruct (collection_names st); simpl..|].
    + split; [intros _; exists st; split; [reflexivity | congruence] | reflexivity].
    + split; [intros _; exists st; split; [reflexivity | congruence] | reflexivity].
    + split; [intros _; exists st; split; [reflexivity | congruence] | reflexivity].
    + split; [intros _; exists st; split; [reflexivity | congruence] | reflexivity].
    + split; [discriminate|].
      intros [st' [E Hn]]. injection E as <-. exfalso. exact (Hn msg En).
  - split; [discriminate|]. intros [st' [E _]]. discriminate E.
Qed.

(** The diagnostic says "✅ Connected & Working" exactly when the handle's
    name was read and [list_collection_names()] succeeded; the report then
    lists the first 10 collection names, and in every other case none. *)
Theorem test_database_working_iff (db : option Store)
  (getenv : string -> option string) :
  (database (test_database db getenv) = "✅ Connected & Working" <->
   exists st cs, db = Some st /\ (forall m, db_name st <> NameRaises m) /\
                 collection_names st = inr cs) /\
  collections (test_database db getenv)
  = match db with
    | Some st =>
        match db_name st, collection_names st with
        | NameRaises _, _ => []
        | _, inr cs => firstn 10 cs
        | _, inl _ => []
        end
    | None => []
    end.
Proof.
  destruct db as [st|]; simpl.
  - unfold test_connected.
    destruct (db_name st) as [s| |msg] eqn:En;
      [destruct (collection_names st) as [e|cs] eqn:Ec..|]; simpl;
      (split; [split|reflexivity]);
      try (intros _; do 2 eexists; split; [reflexivity|]; split; [congruence | eassumption]);
      try (intros H; discriminate H);
      try (intros [st' [cs' [E [Hn Hc]]]]; injection E as <-; congruence);
      try reflexivity.
  - split; [|reflexivity]. split; [discriminate|].
    intros [st' [cs' [E _]]]. discriminate E.
Qed.

(** An id of 24 characters that bson reads as hexadecimal byte pairs with
    whitespace between them is not a malformed id: bson builds an ObjectId
    of fewer than 12 bytes from it, and [get_product] issues the query
    [find_one({"_id": oid})] with that ObjectId instead of answering 400. *)
Theorem short_object_id_is_queried (st : Store) (product_id : string)
  (bs : list N) :
  object_id product_id = Some (VOidBytes bs) ->
  exists r st', get_product (Some st) product_id = (r, Some st') /\
    trace st' = (trace st ++ [OpFindOne "product" [("_id", VOidBytes bs)]])%list /\
    r <> HttpError 400 "Invalid product id".
Proof.
  intros H. unfold get_product. rewrite H. unfold find_one.
  cbv beta iota zeta.
  destruct (find _ _) as [[|kv d]|];
    [| destruct (_doc_to_product (kv :: d)) |];
    do 2 eexists; (split; [reflexivity|]); (split; [reflexivity | discriminate]).
Qed.

Lemma short_object_id_is_queried_witness :
  object_id "0000000000000000000000  "
  = Some (VOidBytes [0; 0; 0; 0; 0; 0; 0; 0; 0; 0; 0]%N) /\
  exists r st', get_product (Some sample_store) "0000000000000000000000  " = (r, Some st') /\
    trace st' = (trace sample_store
                 ++ [OpFindOne "product" [("_id", VOidBytes [0; 0; 0; 0; 0; 0; 0; 0; 0; 0; 0]%N)]])%list /\
    r <> HttpError 400 "Invalid product id".
Proof.
  split; [reflexivity|]. apply short_object_id_is_queried. reflexivity.
Defined.
